(** * observability-app: the instrumented HTTP service of [src/app.ts]

    A shallow embedding of the Express application of [src/app.ts] and of
    the properties its specification states about it.

    - JavaScript numbers are IEEE-754 binary64 values, taken from the
      Standard Library's [SpecFloat] ([prec = 53], [emax = 1024]); products
      and quotients are the correctly rounded ones.
    - The module-level singletons ([register], the two metrics, [logger])
      and the response object of the request being served are fields of
      one [World]; every function of [app.ts] is a computation in the
      state-and-exception monad [M] over it.
    - [res.send] is a property of the response object that the middleware
      reassigns.  It holds a closure, represented by [SendFn]; calling it is
      [call_send].
    - What [app.ts] imports but does not define (Express's own [send] and
      [end], [JSON.stringify], the registry's text exposition, the 404
      handler) is the interface [Framework]; the clock, the random source
      and the reachability of the Loki sink are oracles of the
      environment [Env]. *)

From Stdlib Require Import ZArith Lia Bool List.
From Stdlib Require Import Floats.SpecFloat.
From stdpp Require Import gmap strings.

Open Scope Z_scope.

(** ** JavaScript numbers *)

Definition number : Type := spec_float.

Module JSNumber.

Definition prec : Z := 53.
Definition emax : Z := 1024.

(** An integer literal. *)
Definition of_Z (z : Z) : number := binary_normalize prec emax z 0 false.

(** [x * y], [x / y] and [x + y]. *)
Definition mul : number -> number -> number := SFmul prec emax.
Definition div : number -> number -> number := SFdiv prec emax.
Definition add : number -> number -> number := SFadd prec emax.

(** A well-formed binary64 value. *)
Definition valid (x : number) : bool := valid_binary prec emax x.

(** The decimal literal [n/10] (as [0.1], [0.3]): the double nearest to it. *)
Definition tenths (n : Z) : number := div (of_Z n) (of_Z 10).

(** The integer part, rounded down, of the finite value [(-1)^s * m * 2^e]. *)
Definition floorZ (s : bool) (m : positive) (e : Z) : Z :=
  let v := if s then Zneg m else Zpos m in
  if 0 <=? e then v * 2 ^ e else v / 2 ^ (- e).

(** [Math.floor]. *)
Definition floor (x : number) : number :=
  match x with
  | S754_finite s m e =>
      match floorZ s m e with
      | Z0 => S754_zero s
      | k => of_Z k
      end
  | _ => x
  end.

(** The integer a number denotes, when it is finite and integral. *)
Definition to_integer (x : number) : option Z :=
  match x with
  | S754_zero _ => Some 0
  | S754_finite s m e =>
      if 0 <=? e then Some (floorZ s m e)
      else if (Zpos m) mod 2 ^ (- e) =? 0 then Some (floorZ s m e) else None
  | _ => None
  end.

Definition zero : number := of_Z 0.
Definition one : number := of_Z 1.

(** [0 <= x < 1], the range of [Math.random()]. *)
Definition in_unit_interval (x : number) : bool :=
  valid x && SFleb zero x && SFltb x one.

End JSNumber.

(** ** Data model *)

(** The view of a request the application reads: [req.method], [req.path]. *)
Record Request := { method : string; path : string }.

(** A label set [{ method, route, status_code }]. *)
Definition Labels : Type := string * string * Z.

Definition mkLabels (method route : string) (status_code : Z) : Labels :=
  (method, route, status_code).

(** The closures a response's [send] slot can hold: the framework's own
    [send], or the function the middleware assigns (lines 57-75), which
    closes over the timer [end], the request and the previous slot value
    [originalSend]. *)
Inductive SendFn :=
| FrameworkSend
| PatchedSend (timerStart : Z) (req : Request) (originalSend : SendFn).

(** The response object, as the client and the framework see it. *)
Record Response := {
  statusCode : Z;
  headers : list (string * string);
  body : option string
}.

(** The meta object and fields of the record [logger.info] builds. *)
Record LogRecord := {
  level : string;
  message : string;
  service : string;
  timestamp : string;
  log_method : string;
  log_path : string;
  log_statusCode : Z;
  responseTimeMs : number
}.

(** JSON values handed to [res.json]. *)
#[local] Set Warnings "-register-all".
Inductive Json :=
| JNum (n : number)
| JStr (s : string)
| JObj (fields : list (string * Json)).

(** Metric definitions, as passed to [new client.Histogram] and
    [new client.Counter]. *)
Inductive Metric :=
| Histogram (name help : string) (labelNames : list string) (buckets : list number)
| Counter (name help : string) (labelNames : list string).

Definition metric_name (m : Metric) : string :=
  match m with
  | Histogram name _ _ _ => name
  | Counter name _ _ => name
  end.

(** The values the two metrics hold: the samples observed under each label
    set, and the count under each label set. *)
Record Registry := {
  histogram : gmap Labels (list number);
  counter : gmap Labels number
}.

(** What the logger's transports have written: the console transport, the
    records delivered to Loki, and the output of [console.error]. *)
Record Logger := {
  console : list LogRecord;
  loki : list LogRecord;
  stderr : list string
}.

(** Callbacks scheduled with [setTimeout]. *)
Inductive Task := ApiDataCallback.

(** The instrumentation effects, in the order they happen. *)
Inductive Event :=
| EvObserve (labels : Labels) (value : number)
| EvLog (record : LogRecord)
| EvInc (labels : Labels).

(** The environment: the monotonic clock ([process.hrtime], nanoseconds),
    [Math.random], the wall clock ([new Date().toISOString()]) and whether
    Loki is reachable, each as the sequence of its successive answers with
    the number of answers consumed. *)
Record Env := {
  hrtime : nat -> Z;
  hrtime_reads : nat;
  random : nat -> number;
  random_draws : nat;
  date : nat -> string;
  date_reads : nat;
  lokiUp : nat -> bool;
  loki_pushes : nat
}.

(** [send] is the [send] property of the response object [res]. *)
Record World := {
  res : Response;
  send : SendFn;
  registry : Registry;
  logger : Logger;
  timers : list (number * Task);
  trace : list Event;
  env : Env
}.

(** Field updates. *)
Definition with_res (r : Response) (w : World) : World :=
  {| res := r; send := send w; registry := registry w; logger := logger w;
     timers := timers w; trace := trace w; env := env w |}.
Definition with_send (f : SendFn) (w : World) : World :=
  {| res := res w; send := f; registry := registry w; logger := logger w;
     timers := timers w; trace := trace w; env := env w |}.
Definition with_registry (g : Registry) (w : World) : World :=
  {| res := res w; send := send w; registry := g; logger := logger w;
     timers := timers w; trace := trace w; env := env w |}.
Definition with_logger (l : Logger) (w : World) : World :=
  {| res := res w; send := send w; registry := registry w; logger := l;
     timers := timers w; trace := trace w; env := env w |}.
Definition with_timers (t : list (number * Task)) (w : World) : World :=
  {| res := res w; send := send w; registry := registry w; logger := logger w;
     timers := t; trace := trace w; env := env w |}.
Definition with_trace (t : list Event) (w : World) : World :=
  {| res := res w; send := send w; registry := registry w; logger := logger w;
     timers := timers w; trace := t; env := env w |}.
Definition with_env (e : Env) (w : World) : World :=
  {| res := res w; send := send w; registry := registry w; logger := logger w;
     timers := timers w; trace := trace w; env := e |}.

(** ** The monad: state and exceptions *)

Inductive Outcome (A : Type) :=
| Returned (a : A)
| Thrown (err : string).
Arguments Returned {A} a.
Arguments Thrown {A} err.

Definition M (A : Type) : Type := World -> Outcome A * World.

Definition ret {A} (a : A) : M A := fun w => (Returned a, w).

Definition bind {A B} (c : M A) (k : A -> M B) : M B :=
  fun w =>
    match c w with
    | (Returned a, w') => k a w'
    | (Thrown err, w') => (Thrown err, w')
    end.

Notation "x <- c ;; k" := (bind c (fun x => k))
  (at level 100, c at next level, right associativity).
Notation "c ;; k" := (bind c (fun _ => k))
  (at level 100, right associativity).

Definition gets {A} (f : World -> A) : M A := fun w => (Returned (f w), w).
Definition modify (f : World -> World) : M unit := fun w => (Returned tt, f w).

(** ** What [app.ts] imports *)

(** The framework's operations on the response take the body or chunk and
    the response, and return or throw. *)
Class Framework := {
  (** Express's own [res.send], for a string body. *)
  express_send : string -> Response -> Outcome unit * Response;
  (** [res.end(chunk)]. *)
  node_end : string -> Response -> Outcome unit * Response;
  (** The handler Express runs when no route matches. *)
  finalhandler : Request -> Response -> Outcome unit * Response;
  JSON_stringify : Json -> string;
  (** [register.metrics()] and [register.contentType]. *)
  registry_metrics : Registry -> string;
  registry_contentType : string
}.

Definition lift_res (f : Response -> Outcome unit * Response) : M unit :=
  fun w => let '(o, r) := f (res w) in (o, with_res r w).

(** ** Environment reads *)

Definition process_hrtime : M Z :=
  fun w =>
    let e := env w in
    (Returned (hrtime e (hrtime_reads e)),
     with_env {| hrtime := hrtime e; hrtime_reads := S (hrtime_reads e);
                 random := random e; random_draws := random_draws e;
                 date := date e; date_reads := date_reads e;
                 lokiUp := lokiUp e; loki_pushes := loki_pushes e |} w).

Definition Math_random : M number :=
  fun w =>
    let e := env w in
    (Returned (random e (random_draws e)),
     with_env {| hrtime := hrtime e; hrtime_reads := hrtime_reads e;
                 random := random e; random_draws := S (random_draws e);
                 date := date e; date_reads := date_reads e;
                 lokiUp := lokiUp e; loki_pushes := loki_pushes e |} w).

Definition Date_toISOString : M string :=
  fun w =>
    let e := env w in
    (Returned (date e (date_reads e)),
     with_env {| hrtime := hrtime e; hrtime_reads := hrtime_reads e;
                 random := random e; random_draws := random_draws e;
                 date := date e; date_reads := S (date_reads e);
                 lokiUp := lokiUp e; loki_pushes := loki_pushes e |} w).

Definition loki_reachable : M bool :=
  fun w =>
    let e := env w in
    (Returned (lokiUp e (loki_pushes e)),
     with_env {| hrtime := hrtime e; hrtime_reads := hrtime_reads e;
                 random := random e; random_draws := random_draws e;
                 date := date e; date_reads := date_reads e;
                 lokiUp := lokiUp e; loki_pushes := S (loki_pushes e) |} w).

Definition emit (ev : Event) : M unit :=
  modify (fun w => with_trace (trace w ++ [ev]) w).

(** ** Metrics (lines 8-28) *)

Definition httpRequestDurationMicroseconds : Metric :=
  Histogram "http_request_duration_seconds"
            "Duration of HTTP requests in seconds"
            ["method"; "route"; "status_code"]%string
            [JSNumber.tenths 1; JSNumber.tenths 3; JSNumber.tenths 5;
             JSNumber.tenths 7; JSNumber.of_Z 1; JSNumber.of_Z 3;
             JSNumber.of_Z 5; JSNumber.of_Z 7; JSNumber.of_Z 10].

Definition httpRequestCounter : Metric :=
  Counter "http_requests_total"
          "Total number of HTTP requests"
          ["method"; "route"; "status_code"]%string.

(** [register.registerMetric]: the registry keeps its metrics by name and
    refuses a new metric under a name it already has. *)
Definition registerMetric (m : Metric) (metrics : gmap string Metric)
  : option (gmap string Metric) :=
  match metrics !! metric_name m with
  | Some _ => None
  | None => Some (<[metric_name m := m]> metrics)
  end.

(** The registry after lines 9-28; [defaults] is what
    [client.collectDefaultMetrics] has put there. *)
Definition register (defaults : gmap string Metric) : option (gmap string Metric) :=
  metrics ← registerMetric httpRequestDurationMicroseconds defaults;
  registerMetric httpRequestCounter metrics.

(** The elapsed seconds a timer reports for a difference of [delta]
    nanoseconds: whole seconds plus nanoseconds over [1e9]. *)
Definition seconds_of_ns (delta : Z) : number :=
  JSNumber.add (JSNumber.of_Z (delta / 1000000000))
               (JSNumber.div (JSNumber.of_Z (delta mod 1000000000))
                             (JSNumber.of_Z 1000000000)).

Definition observe (labels : Labels) (value : number) : M unit :=
  modify (fun w =>
    let g := registry w in
    with_registry
      {| histogram := <[labels := value :: default [] (histogram g !! labels)]> (histogram g);
         counter := counter g |} w) ;;
  emit (EvObserve labels value).

(** [httpRequestDurationMicroseconds.startTimer()]: the closure it returns
    is determined by the clock reading it keeps. *)
Definition startTimer : M Z := process_hrtime.

(** [end(labels)]: observes the elapsed seconds and returns them. *)
Definition timer_end (timerStart : Z) (labels : Labels) : M number :=
  now <- process_hrtime ;;
  let value := seconds_of_ns (now - timerStart) in
  observe labels value ;;
  ret value.

(** [httpRequestCounter.inc(labels)]. *)
Definition counter_inc (labels : Labels) : M unit :=
  modify (fun w =>
    let g := registry w in
    with_registry
      {| histogram := histogram g;
         counter := <[labels := JSNumber.add (default JSNumber.zero (counter g !! labels))
                                             JSNumber.one]> (counter g) |} w) ;;
  emit (EvInc labels).

(** ** The logger (lines 30-46) *)

(** [process.env.LOKI_HOST || 'http://loki:3100']. *)
Definition loki_host (LOKI_HOST : option string) : string :=
  match LOKI_HOST with
  | Some s => if decide (s = ""%string) then "http://loki:3100"%string else s
  | None => "http://loki:3100"%string
  end.

(** [logger.info(message, meta)]: the record gets the level, the default
    meta [service] and a timestamp; the console transport writes it; the
    Loki transport delivers it, or reports the connection error through
    [onConnectionError], which writes it with [console.error]. *)
Definition logger_info (msg : string) (m p : string) (sc : Z) (ms : number) : M unit :=
  ts <- Date_toISOString ;;
  let record := {| level := "info"; message := msg; service := "api-service";
                   timestamp := ts; log_method := m; log_path := p;
                   log_statusCode := sc; responseTimeMs := ms |} in
  up <- loki_reachable ;;
  modify (fun w =>
    let l := logger w in
    with_logger
      {| console := console l ++ [record];
         loki := if up then loki l ++ [record] else loki l;
         stderr := if up then stderr l else stderr l ++ ["connection error"%string] |} w) ;;
  emit (EvLog record).

(** ** The response object *)

(** [res.set(name, value)]. *)
Definition res_set (name value : string) : M unit :=
  modify (fun w =>
    let r := res w in
    with_res {| statusCode := statusCode r;
                headers := (name, value) :: filter (fun h => h.1 ≠ name) (headers r);
                body := body r |} w).

(** [res.get(name)]. *)
Definition res_get (name : string) : M (option string) :=
  gets (fun w => snd <$> head (filter (fun h => h.1 = name) (headers (res w)))).

Section WithFramework.

Context {fw : Framework}.

(** Lines 59-72: what the assigned function does once [originalSend] has
    returned.  [res.statusCode] is read each time a label object or the
    log meta is built. *)
Definition instrument (timerStart : Z) (req : Request) : M unit :=
  sc <- gets (fun w => statusCode (res w)) ;;
  responseTime <- timer_end timerStart (mkLabels (method req) (path req) sc) ;;
  sc' <- gets (fun w => statusCode (res w)) ;;
  logger_info "Request processed" (method req) (path req) sc'
              (JSNumber.mul responseTime (JSNumber.of_Z 1000)) ;;
  sc'' <- gets (fun w => statusCode (res w)) ;;
  counter_inc (mkLabels (method req) (path req) sc'').

(** Calling the function that a [send] slot holds, with [this] the response
    of the world.  The second case is lines 57-75. *)
Fixpoint call_send (f : SendFn) (body : string) : M unit :=
  match f with
  | FrameworkSend => lift_res (express_send body)
  | PatchedSend timerStart req originalSend =>
      call_send originalSend body ;;
      instrument timerStart req ;;
      ret tt
  end.

(** [res.send(body)]: whatever the slot holds. *)
Definition res_send (body : string) : M unit :=
  f <- gets send ;;
  call_send f body.

(** [res.json(obj)]: serialises, sets the content type when there is none,
    and hands the string to [this.send]. *)
Definition res_json (obj : Json) : M unit :=
  let body := JSON_stringify obj in
  ct <- res_get "Content-Type" ;;
  match ct with
  | None => res_set "Content-Type" "application/json"
  | Some _ => ret tt
  end ;;
  res_send body.

(** [res.end(chunk)]. *)
Definition res_end (chunk : string) : M unit := lift_res (node_end chunk).

(** ** The middleware (lines 53-78) *)

Definition middleware (req : Request) (next : M unit) : M unit :=
  end_ <- startTimer ;;
  originalSend <- gets send ;;
  modify (with_send (PatchedSend end_ req originalSend)) ;;
  next.

(** ** The handlers (lines 80-102) *)

Definition setTimeout (t : Task) (delay : number) : M unit :=
  modify (fun w => with_timers (timers w ++ [(delay, t)]) w).

(** The object the data endpoint answers with, for a random draw and a
    timestamp. *)
Definition api_data_payload (r : number) (ts : string) : Json :=
  JObj [("value"%string, JNum (JSNumber.floor (JSNumber.mul r (JSNumber.of_Z 100))));
        ("timestamp"%string, JStr ts)].

Definition api_data_callback : M unit :=
  r <- Math_random ;;
  ts <- Date_toISOString ;;
  res_json (api_data_payload r ts).

Definition api_data : M unit :=
  r <- Math_random ;;
  let processingTime := JSNumber.mul r (JSNumber.of_Z 500) in
  setTimeout ApiDataCallback processingTime.

Definition health_payload : Json := JObj [("status"%string, JStr "ok")].

Definition health : M unit := res_json health_payload.

Definition metrics : M unit :=
  res_set "Content-Type" registry_contentType ;;
  text <- gets (fun w => registry_metrics (registry w)) ;;
  res_end text.

(** ** Routing and the life of one request *)

Inductive Route := RApiData | RHealth | RMetrics | RNone.

Definition route (req : Request) : Route :=
  if decide (method req = "GET"%string) then
    if decide (path req = "/api/data"%string) then RApiData
    else if decide (path req = "/health"%string) then RHealth
    else if decide (path req = "/metrics"%string) then RMetrics
    else RNone
  else RNone.

Definition dispatch (req : Request) : M unit :=
  match route req with
  | RApiData => api_data
  | RHealth => health
  | RMetrics => metrics
  | RNone => lift_res (finalhandler req)
  end.

Definition run_task (t : Task) : M unit :=
  match t with
  | ApiDataCallback => api_data_callback
  end.

(** The timers that are due fire one after the other, each removed from
    the queue before it runs. *)
Fixpoint run_timers (ts : list (number * Task)) : M unit :=
  match ts with
  | [] => ret tt
  | (_, t) :: rest =>
      modify (fun w => with_timers (tail (timers w)) w) ;;
      run_task t ;;
      run_timers rest
  end.

Definition event_loop : M unit :=
  ts <- gets timers ;;
  run_timers ts.

(** A fresh response object: status 200, nothing set, nothing sent. *)
Definition fresh_response : Response :=
  {| statusCode := 200; headers := []; body := None |}.

Definition new_response : M unit :=
  modify (fun w => with_send FrameworkSend (with_res fresh_response w)).

(** One request through the application: the middleware, the matching
    handler, and the timers the handler has set. *)
Definition handle_request (req : Request) : M unit :=
  new_response ;;
  middleware req (dispatch req) ;;
  event_loop.

(** The same request through the handlers alone, the middleware not
    installed. *)
Definition handle_request_bare (req : Request) : M unit :=
  new_response ;;
  dispatch req ;;
  event_loop.


End WithFramework.

(** ** Vocabulary of the statements *)

(** No request is in flight: no timer is pending. *)
Definition quiescent (w : World) : Prop := timers w = [].

(** The framework's [send] delivers the body it is given, under the status
    code the response carries, and returns. *)
Definition send_delivers (fw : Framework) : Prop :=
  forall b r, exists r',
    express_send b r = (Returned tt, r')
    /\ statusCode r' = statusCode r /\ body r' = Some b.

(** The events a run from [w] to [w'] has added. *)
Definition emitted (w w' : World) : list Event :=
  drop (length (trace w)) (trace w').

Definition observations_in (evs : list Event) : list (Labels * number) :=
  omap (fun ev => match ev with EvObserve l v => Some (l, v) | _ => None end) evs.
Definition logs_in (evs : list Event) : list LogRecord :=
  omap (fun ev => match ev with EvLog r => Some r | _ => None end) evs.
Definition increments_in (evs : list Event) : list Labels :=
  omap (fun ev => match ev with EvInc l => Some l | _ => None end) evs.

Definition log_labels (r : LogRecord) : Labels :=
  mkLabels (log_method r) (log_path r) (log_statusCode r).

(** One log record, one histogram observation and one counter increment,
    all three under the method and path of [req] and the status code of
    the response. *)
Definition sample_set_once (req : Request) (w w' : World) : Prop :=
  exists v record,
    let l := mkLabels (method req) (path req) (statusCode (res w')) in
    observations_in (emitted w w') = [(l, v)]
    /\ increments_in (emitted w w') = [l]
    /\ logs_in (emitted w w') = [record]
    /\ log_labels record = l.

(** The world with what only the Loki sink decides taken out: whether it
    is reachable, what it received, what its failures printed. *)
Definition erase_sink (w : World) : World :=
  let e := env w in
  {| res := res w; send := send w; registry := registry w;
     logger := {| console := console (logger w); loki := []; stderr := [] |};
     timers := timers w; trace := trace w;
     env := {| hrtime := hrtime e; hrtime_reads := hrtime_reads e;
               random := random e; random_draws := random_draws e;
               date := date e; date_reads := date_reads e;
               lokiUp := fun _ => true; loki_pushes := loki_pushes e |} |}.

(** A computation the Loki sink has no say in: run from two worlds that
    differ in nothing but the sink, it ends the same way in two worlds
    that differ in nothing but the sink. *)
Definition sink_blind {A} (c : M A) : Prop :=
  forall w1 w2, erase_sink w1 = erase_sink w2 ->
    fst (c w1) = fst (c w2) /\ erase_sink (snd (c w1)) = erase_sink (snd (c w2)).

(** ** A framework and a world to run the application on *)

Definition deliver (b : string) (r : Response) : Outcome unit * Response :=
  (Returned tt,
   {| statusCode := statusCode r; headers := headers r; body := Some b |}).

(** A framework whose [send] and [end] deliver what they are given, and
    which answers an unmatched request with 404. *)
Definition plain_framework : Framework :=
  {| express_send := deliver;
     node_end := deliver;
     finalhandler := fun _ r =>
       (Returned tt,
        {| statusCode := 404; headers := headers r;
           body := Some "Not Found"%string |});
     JSON_stringify := fun j =>
       match j with
       | JObj (("status"%string, JStr s) :: _) => ("status:" ++ s)%string
       | _ => "data"%string
       end;
     registry_metrics := fun _ => "# metrics"%string;
     registry_contentType := "text/plain; version=0.0.4; charset=utf-8" |}.

(** A framework whose [send] refuses a response that was already sent. *)
Definition strict_framework : Framework :=
  {| express_send := fun b r =>
       match body r with
       | Some _ => (Thrown "ERR_HTTP_HEADERS_SENT", r)
       | None => deliver b r
       end;
     node_end := deliver;
     finalhandler := @finalhandler plain_framework;
     JSON_stringify := @JSON_stringify plain_framework;
     registry_metrics := @registry_metrics plain_framework;
     registry_contentType := @registry_contentType plain_framework |}.

(** A framework serving a conditional request whose validators still
    match: its [send] answers 304 with an empty body, as Express's does
    when the request is fresh. *)
Definition conditional_framework : Framework :=
  {| express_send := fun _ r =>
       (Returned tt,
        {| statusCode := 304; headers := headers r; body := Some ""%string |});
     node_end := deliver;
     finalhandler := @finalhandler plain_framework;
     JSON_stringify := @JSON_stringify plain_framework;
     registry_metrics := @registry_metrics plain_framework;
     registry_contentType := @registry_contentType plain_framework |}.

Definition env0 (up : bool) : Env :=
  {| hrtime := fun n => 1500000000 * Z.of_nat n; hrtime_reads := 0;
     random := fun _ => JSNumber.tenths 5; random_draws := 0;
     date := fun _ => "2024-01-01T00:00:00.000Z"%string; date_reads := 0;
     lokiUp := fun _ => up; loki_pushes := 0 |}.

Definition world0 (up : bool) : World :=
  {| res := fresh_response; send := FrameworkSend;
     registry := {| histogram := ∅; counter := ∅ |};
     logger := {| console := []; loki := []; stderr := [] |};
     timers := []; trace := []; env := env0 up |}.

Definition GET (p : string) : Request := {| method := "GET"; path := p |}.

(** ** Vocabulary of the further properties *)

(** [res.end] delivers the chunk it is given and keeps the status code and
    the headers set before. *)
Definition end_delivers (fw : Framework) : Prop :=
  forall b r, exists r',
    node_end b r = (Returned tt, r')
    /\ statusCode r' = statusCode r /\ headers r' = headers r /\ body r' = Some b.



#[global] Instance Route_eq_dec : EqDecision Route.
Proof. solve_decision. Defined.

(** * Proofs

    ** Rounding in binary64 *)

Section ShiftRight.

Lemma iter_pos_nat {A} (f : A -> A) (p : positive) (x : A) :
  SpecFloat.iter_pos f p x = Nat.iter (Pos.to_nat p) f x.
Proof.
  revert x; induction p as [p IH|p IH|]; intros x; cbn [SpecFloat.iter_pos].
  - rewrite !IH, Pos2Nat.inj_xI, <- Nat.iter_succ_r.
    replace (S (2 * Pos.to_nat p))%nat with (Pos.to_nat p + S (Pos.to_nat p))%nat by lia.
    now rewrite Nat.iter_add.
  - rewrite !IH, Pos2Nat.inj_xO.
    replace (2 * Pos.to_nat p)%nat with (Pos.to_nat p + Pos.to_nat p)%nat by lia.
    now rewrite Nat.iter_add.
  - reflexivity.
Qed.

Lemma shr_1_spec (mrs : shr_record) :
  0 <= shr_m mrs ->
  shr_m (shr_1 mrs) = shr_m mrs / 2 /\ shr_r (shr_1 mrs) = Z.odd (shr_m mrs).
Proof.
  destruct mrs as [m r s]; cbn [shr_m]; intros Hm.
  destruct m as [|p|p]; [now split| |lia].
  destruct p as [p|p|]; cbn [shr_1 shr_m shr_r]; split; try reflexivity.
  - rewrite Pos2Z.inj_xI. apply Z.div_unique with (r := 1); lia.
  - rewrite Pos2Z.inj_xO. apply Z.div_unique with (r := 0); lia.
Qed.

Lemma shr_iter_spec (k : nat) (mrs : shr_record) :
  0 <= shr_m mrs ->
  shr_m (Nat.iter (S k) shr_1 mrs) = shr_m mrs / 2 ^ Z.of_nat (S k) /\
  shr_r (Nat.iter (S k) shr_1 mrs) = Z.odd (shr_m mrs / 2 ^ Z.of_nat k).
Proof.
  intros Hm. induction k as [|k IH].
  - cbn [Nat.iter nat_rect]. destruct (shr_1_spec mrs Hm) as [-> ->].
    split; [reflexivity | now rewrite Z.pow_0_r, Z.div_1_r].
  - rewrite Nat.iter_succ. destruct IH as [IHm IHr].
    assert (Hpos : 0 <= shr_m (Nat.iter (S k) shr_1 mrs)).
    { rewrite IHm. apply Z.div_pos; [assumption | apply Z.pow_pos_nonneg; lia]. }
    destruct (shr_1_spec _ Hpos) as [-> ->]. rewrite IHm. split; [|reflexivity].
    rewrite Z.div_div by (try apply Z.pow_nonzero; lia).
    f_equal. rewrite (Nat2Z.inj_succ (S k)), Z.pow_succ_r by lia. lia.
Qed.


Lemma shr_fexp_exact (m e : Z) (mrs : shr_record) (e' : Z) :
  0 <= m ->
  shr_fexp JSNumber.prec JSNumber.emax m e loc_Exact = (mrs, e') ->
  exists n, 0 <= n /\
    n = Z.max 0 (fexp JSNumber.prec JSNumber.emax (Zdigits2 m + e) - e) /\
    e' = e + n /\ shr_m mrs = m / 2 ^ n /\
    2 * round_nearest_even (shr_m mrs) (loc_of_shr_record mrs) * 2 ^ n
      <= 2 * m + 2 ^ n /\
    shr_m mrs <= round_nearest_even (shr_m mrs) (loc_of_shr_record mrs).
Proof.
  intros Hm. unfold shr_fexp, shr. cbn [shr_record_of_loc].
  destruct (fexp _ _ _ - e) as [|p|p] eqn:Hn; intros [= <- <-].
  - exists 0. cbn. rewrite Z.div_1_r. repeat split; lia.
  - exists (Z.pos p). rewrite iter_pos_nat.
    destruct (Pos2Nat.is_succ p) as [k Hk]. rewrite Hk.
    destruct (shr_iter_spec k {| shr_m := m; shr_r := false; shr_s := false |} Hm)
      as [Hq Hr]. cbn [shr_m] in Hq, Hr.
    assert (HSk : Z.of_nat (S k) = Z.pos p) by (rewrite <- Hk; apply positive_nat_Z).
    assert (Hkk : Z.of_nat k = Z.pos p - 1) by lia.
    rewrite HSk in Hq. rewrite Hkk in Hr.
    set (out := Nat.iter (S k) shr_1 _) in *.
    assert (Hpow : 2 ^ Z.pos p = 2 * 2 ^ (Z.pos p - 1)).
    { rewrite <- Z.pow_succ_r by lia. f_equal; lia. }
    assert (Hpp : 0 < 2 ^ (Z.pos p - 1)) by (apply Z.pow_pos_nonneg; lia).
    assert (Hdd : m / 2 ^ Z.pos p = m / 2 ^ (Z.pos p - 1) / 2).
    { rewrite Hpow, Z.mul_comm, Z.div_div by lia. reflexivity. }
    pose proof (Z.mul_div_le m (2 ^ (Z.pos p - 1)) Hpp) as Hle.
    pose proof (Z.div_pos m (2 ^ (Z.pos p - 1)) Hm Hpp) as Ha.
    set (a := m / 2 ^ (Z.pos p - 1)) in *.
    pose proof (Z.div_mod a 2 ltac:(lia)) as Hdm.
    pose proof (Z.mod_pos_bound a 2 ltac:(lia)) as Hmb.
    assert (Hodd : shr_r out = true -> a mod 2 = 1).
    { intros Ht. rewrite Ht in Hr. symmetry in Hr.
      rewrite Zmod_odd, Hr. reflexivity. }
    split; [lia|]. split; [lia|]. split; [lia|]. split; [exact Hq|]. split.
    + destruct out as [q r s]. cbn [shr_m shr_r] in *. subst q.
      rewrite Hdd.
      destruct r, s; cbn [loc_of_shr_record round_nearest_even];
        try destruct (Z.even _); try specialize (Hodd eq_refl); nia.
    + destruct out as [q r s]. cbn [shr_m].
      destruct r, s; cbn [loc_of_shr_record round_nearest_even];
        try destruct (Z.even _); lia.
  - exists 0. cbn. rewrite Z.div_1_r. repeat split; lia.
Qed.

Lemma digits2_pos_size (p : positive) : digits2_pos p = Pos.size p.
Proof. induction p; cbn; congruence. Qed.

Lemma Zdigits2_le (p : positive) (x : Z) :
  0 <= x -> Z.pos p < 2 ^ x -> Zdigits2 (Z.pos p) <= x.
Proof.
  intros Hx Hlt. cbn [Zdigits2]. rewrite digits2_pos_size.
  pose proof (Pos.size_le p) as Hs.
  apply Pos2Z.pos_le_pos in Hs. rewrite Pos2Z.inj_pow in Hs.
  change (2 ^ Z.pos (Pos.size p) <= 2 * Z.pos p) in Hs.
  assert (H2 : 2 ^ Z.pos (Pos.size p) < 2 ^ (x + 1)).
  { rewrite Z.pow_add_r, Z.pow_1_r by lia. lia. }
  apply Z.pow_lt_mono_r_iff in H2; lia.
Qed.

Lemma Zdigits2_gt (p : positive) : Z.pos p < 2 ^ Zdigits2 (Z.pos p).
Proof.
  cbn [Zdigits2]. rewrite digits2_pos_size.
  pose proof (Pos.size_gt p) as Hs.
  apply Pos2Z.pos_lt_pos in Hs. now rewrite Pos2Z.inj_pow in Hs.
Qed.

End ShiftRight.

Section RoundBelow.

Lemma binary_round_aux_below (s : bool) (M : positive) (K B : Z) :
  0 <= K -> 0 < B <= 2 ^ 971 ->
  2 * Z.pos M
    + 2 ^ Z.max 0 (fexp JSNumber.prec JSNumber.emax (Zdigits2 (Z.pos M) + - K) - - K)
    < 2 * B * 2 ^ K ->
  match binary_round_aux JSNumber.prec JSNumber.emax s (Z.pos M) (- K) loc_Exact with
  | S754_zero s' => s' = s
  | S754_finite s' m e => s' = s /\ JSNumber.floorZ false m e < B
  | _ => False
  end.
Proof.
  intros HK HB Hlt. unfold binary_round_aux.
  destruct (shr_fexp _ _ (Z.pos M) (- K) loc_Exact) as [mrs1 e1] eqn:H1.
  apply shr_fexp_exact in H1; [|lia].
  destruct H1 as (n1 & Hn1 & Hn1' & -> & Hq1 & Hr1 & Hge1).
  rewrite <- Hn1' in Hlt.
  set (m1 := round_nearest_even (shr_m mrs1) (loc_of_shr_record mrs1)) in *.
  assert (Hm1 : 0 <= m1).
  { enough (0 <= shr_m mrs1) by lia. rewrite Hq1.
    apply Z.div_pos; [lia | apply Z.pow_pos_nonneg; lia]. }
  destruct (shr_fexp _ _ m1 (- K + n1) loc_Exact) as [mrs2 e2] eqn:H2.
  apply shr_fexp_exact in H2; [|exact Hm1].
  destruct H2 as (n2 & Hn2 & _ & -> & Hq2 & _ & _).
  assert (Hp1 : 0 < 2 ^ n1) by (apply Z.pow_pos_nonneg; lia).
  assert (Hp2 : 0 < 2 ^ n2) by (apply Z.pow_pos_nonneg; lia).
  assert (HpK : 0 < 2 ^ K) by (apply Z.pow_pos_nonneg; lia).
  pose proof (Z.mul_div_le m1 (2 ^ n2) Hp2) as Hle2. rewrite <- Hq2 in Hle2.
  assert (Hval : shr_m mrs2 * (2 ^ n1 * 2 ^ n2) < B * 2 ^ K) by nia.
  destruct (shr_m mrs2) as [|m|m] eqn:Hm2; [reflexivity| |].
  - assert (Hfl : JSNumber.floorZ false m (- K + n1 + n2) < B).
    { unfold JSNumber.floorZ. destruct (0 <=? - K + n1 + n2) eqn:He.
      - apply Z.leb_le in He.
        replace (2 ^ n1 * 2 ^ n2) with (2 ^ K * 2 ^ (- K + n1 + n2)) in Hval.
        2:{ rewrite <- !Z.pow_add_r by lia. f_equal; lia. }
        assert (0 < 2 ^ (- K + n1 + n2)) by (apply Z.pow_pos_nonneg; lia). nia.
      - apply Z.leb_gt in He.
        assert (Ht : 0 < 2 ^ (- (- K + n1 + n2))) by (apply Z.pow_pos_nonneg; lia).
        apply Z.div_lt_upper_bound; [exact Ht|].
        replace (2 ^ K) with (2 ^ n1 * 2 ^ n2 * 2 ^ (- (- K + n1 + n2))) in Hval.
        2:{ rewrite <- !Z.pow_add_r by lia. f_equal; lia. }
        nia. }
    destruct (- K + n1 + n2 <=? JSNumber.emax - JSNumber.prec) eqn:Hov;
      [split; [reflexivity | exact Hfl]|].
    apply Z.leb_gt in Hov. unfold JSNumber.emax, JSNumber.prec in Hov.
    unfold JSNumber.floorZ in Hfl.
    replace (0 <=? - K + n1 + n2) with true in Hfl by (symmetry; apply Z.leb_le; lia).
    assert (2 ^ 971 <= 2 ^ (- K + n1 + n2)) by (apply Z.pow_le_mono_r; lia).
    nia.
  - exfalso. pose proof (Z.div_pos m1 (2 ^ n2) Hm1 Hp2). lia.
Qed.

End RoundBelow.

Section RandomScaling.

Lemma pow2_52 : 2 ^ 52 = 4503599627370496.
Proof. vm_compute; reflexivity. Qed.

Lemma pow2_53 : 2 ^ 53 = 9007199254740992.
Proof. vm_compute; reflexivity. Qed.

Lemma pow2_99 : 2 ^ 99 = 633825300114114700748351602688.
Proof. vm_compute; reflexivity. Qed.

Lemma pow2_106 : 2 ^ 106 = 81129638414606681695789005144064.
Proof. vm_compute; reflexivity. Qed.

Lemma one_eq : JSNumber.one = S754_finite false 4503599627370496 (-52).
Proof. vm_compute; reflexivity. Qed.

Lemma hundred_eq : JSNumber.of_Z 100 = S754_finite false 7036874417766400 (-46).
Proof. vm_compute; reflexivity. Qed.

Lemma unit_interval_finite (m : positive) (e : Z) :
  JSNumber.valid (S754_finite false m e) = true ->
  SFltb (S754_finite false m e) JSNumber.one = true ->
  Z.pos m < 2 ^ 53 /\ e <= -53.
Proof.
  unfold JSNumber.valid, valid_binary, bounded, canonical_mantissa, fexp, emin.
  unfold JSNumber.prec, JSNumber.emax. intros Hv Hlt.
  apply andb_true_iff in Hv as [Hc _]. apply Z.eqb_eq in Hc.
  pose proof (Zdigits2_gt m) as Hd. cbn [Zdigits2] in Hd.
  assert (Hd53 : Z.pos (digits2_pos m) <= 53) by lia.
  split.
  - eapply Z.lt_le_trans; [exact Hd|]. apply Z.pow_le_mono_r; lia.
  - rewrite one_eq in Hlt.
    unfold SFltb, SFcompare in Hlt.
    destruct (e ?= -52) eqn:He; try discriminate.
    + apply Z.compare_eq in He. subst e.
      destruct (Pos.compare_cont Eq m 4503599627370496) eqn:Hm; try discriminate.
      apply (proj1 (Pos.compare_lt_iff m 4503599627370496)), Pos2Z.pos_lt_pos in Hm.
      assert (Hm' : Z.pos m < 2 ^ 52) by (rewrite pow2_52; lia).
      apply Zdigits2_le in Hm'; [|lia]. cbn [Zdigits2] in Hm'. lia.
    + rewrite Z.compare_lt_iff in He. lia.
Qed.

Lemma to_integer_of_Z_small (k : Z) :
  0 < k < 100 -> JSNumber.to_integer (JSNumber.of_Z k) = Some k.
Proof.
  intros Hk.
  assert (Hall : forallb
            (fun n => match JSNumber.to_integer (JSNumber.of_Z (Z.of_nat n)) with
                      | Some k' => Z.of_nat n =? k'
                      | None => false
                      end) (seq 1 99) = true) by (vm_compute; reflexivity).
  rewrite forallb_forall in Hall.
  specialize (Hall (Z.to_nat k)). rewrite Z2Nat.id in Hall by lia.
  destruct (JSNumber.to_integer _) as [k'|].
  - f_equal. symmetry. apply Z.eqb_eq. apply Hall. apply in_seq. lia.
  - discriminate Hall. apply in_seq. lia.
Qed.

Lemma scaled_random_in_range (r : number) :
  JSNumber.in_unit_interval r = true ->
  exists k,
    JSNumber.to_integer (JSNumber.floor (JSNumber.mul r (JSNumber.of_Z 100))) = Some k
    /\ 0 <= k <= 99.
Proof.
  unfold JSNumber.in_unit_interval. intros Hr.
  apply andb_true_iff in Hr as [Hr H1]. apply andb_true_iff in Hr as [Hv H0].
  destruct r as [s| s | |s m e]; try discriminate.
  - exists 0. split; [reflexivity | lia].
  - destruct s; discriminate.
  - destruct s; [discriminate|].
    destruct (unit_interval_finite m e Hv H1) as [Hm He].
    rewrite hundred_eq.
    unfold JSNumber.mul, SFmul. cbn [xorb].
    replace (e + -46) with (- (46 - e)) by lia.
    pose proof (binary_round_aux_below false (m * 7036874417766400) (46 - e) 100) as Hb.
    assert (HK : 0 <= 46 - e) by lia.
    assert (HB : 0 < 100 <= 2 ^ 971).
    { split; [lia|]. transitivity (2 ^ 53); [rewrite pow2_53; lia|].
      apply Z.pow_le_mono_r; lia. }
    specialize (Hb HK HB).
    assert (Hlt : 2 * Z.pos (m * 7036874417766400)
       + 2 ^ Z.max 0 (fexp JSNumber.prec JSNumber.emax
                        (Zdigits2 (Z.pos (m * 7036874417766400)) + - (46 - e))
                      - - (46 - e))
       < 2 * 100 * 2 ^ (46 - e)).
    { set (K := 46 - e) in *. set (M := (m * 7036874417766400)%positive).
      assert (HM : Z.pos M = Z.pos m * 7036874417766400) by (subst M; apply Pos2Z.inj_mul).
      assert (HP : 0 < 2 ^ (K - 99)) by (apply Z.pow_pos_nonneg; lia).
      assert (HK2 : 2 ^ K = 2 ^ 99 * 2 ^ (K - 99)).
      { rewrite <- Z.pow_add_r by lia. f_equal; lia. }
      assert (HK3 : 2 ^ (K - 46) = 2 ^ 53 * 2 ^ (K - 99)).
      { rewrite <- Z.pow_add_r by lia. f_equal; lia. }
      assert (Hdig : Zdigits2 (Z.pos M) <= 7 + K).
      { apply Zdigits2_le; [lia|]. rewrite HM.
        replace (7 + K) with (106 + (K - 99)) by lia.
        rewrite Z.pow_add_r by lia.
        assert (Z.pos m * 7036874417766400 < 2 ^ 106)
          by (rewrite pow2_106; rewrite pow2_53 in Hm; lia).
        nia. }
      assert (Hn : Z.max 0 (fexp JSNumber.prec JSNumber.emax (Zdigits2 (Z.pos M) + - K)
                            - - K) <= K - 46).
      { unfold fexp, emin, JSNumber.prec, JSNumber.emax. lia. }
      assert (Hpw : 2 ^ Z.max 0 (fexp JSNumber.prec JSNumber.emax
                                   (Zdigits2 (Z.pos M) + - K) - - K) <= 2 ^ (K - 46))
        by (apply Z.pow_le_mono_r; lia).
      rewrite HK3 in Hpw. rewrite HK2.
      set (pw := 2 ^ Z.max 0 _) in *. set (P := 2 ^ (K - 99)) in *.
      clearbody pw P. rewrite HM. rewrite pow2_53 in Hpw, Hm. rewrite pow2_99.
      clear - Hpw Hm HP. lia. }
    specialize (Hb Hlt).
    destruct (binary_round_aux _ _ _ _ _ _) as [s'| | |s' m' e']; try contradiction.
    + exists 0. split; [reflexivity | lia].
    + destruct Hb as [-> Hfl]. cbn [JSNumber.floor].
      assert (Hnn : 0 <= JSNumber.floorZ false m' e').
      { unfold JSNumber.floorZ. destruct (0 <=? e') eqn:He'.
        - apply Z.mul_nonneg_nonneg; [lia | apply Z.pow_nonneg; lia].
        - apply Z.leb_gt in He'.
          apply Z.div_pos; [lia | apply Z.pow_pos_nonneg; lia]. }
      destruct (JSNumber.floorZ false m' e') as [|k|k] eqn:Hk.
      * exists 0. split; [reflexivity | lia].
      * exists (Z.pos k). split; [apply to_integer_of_Z_small; lia | lia].
      * lia.
Qed.

End RandomScaling.

(** ** Running the monad *)

Ltac run :=
  cbv beta iota zeta delta
    [bind ret gets modify emit observe counter_inc timer_end startTimer
     process_hrtime Math_random Date_toISOString loki_reachable logger_info
     instrument res_set res_get setTimeout lift_res mkLabels
     with_res with_send with_registry with_logger with_timers with_trace with_env
     res send registry logger timers trace env
     statusCode headers body histogram counter console loki stderr
     hrtime hrtime_reads random random_draws date date_reads lokiUp loki_pushes].

Section Instrumentation.

Context {fw : Framework}.

(** The record lines 61-66 build for a request, a status code, a timestamp
    and the elapsed seconds. *)
Lemma instrument_spec (timerStart : Z) (req : Request) (w : World) :
  exists w',
    instrument timerStart req w = (Returned tt, w')
    /\ res w' = res w /\ timers w' = timers w /\ send w' = send w
    /\ let l := mkLabels (method req) (path req) (statusCode (res w)) in
       let v := seconds_of_ns (hrtime (env w) (hrtime_reads (env w)) - timerStart) in
       let record :=
         {| level := "info"; message := "Request processed";
            service := "api-service";
            timestamp := date (env w) (date_reads (env w));
            log_method := method req; log_path := path req;
            log_statusCode := statusCode (res w);
            responseTimeMs := JSNumber.mul v (JSNumber.of_Z 1000) |} in
       trace w' = trace w ++ [EvObserve l v; EvLog record; EvInc l]
       /\ console (logger w') = console (logger w) ++ [record]
       /\ histogram (registry w')
          = <[l := v :: default [] (histogram (registry w) !! l)]> (histogram (registry w))
       /\ counter (registry w')
          = <[l := JSNumber.add (default JSNumber.zero (counter (registry w) !! l))
                                JSNumber.one]> (counter (registry w)).
Proof.
  eexists. split; [run; reflexivity|]. run.
  repeat split. now rewrite <- !app_assoc.
Qed.

Lemma call_send_patched (timerStart : Z) (req : Request) (orig : SendFn)
      (b : string) (w : World) :
  call_send (PatchedSend timerStart req orig) b w =
  match call_send orig b w with
  | (Returned _, w1) => instrument timerStart req w1
  | (Thrown err, w1) => (Thrown err, w1)
  end.
Proof.
  cbn [call_send]. unfold bind at 1.
  destruct (call_send orig b w) as [[[]|err] w1]; [|reflexivity].
  unfold bind, ret. destruct (instrument_spec timerStart req w1) as (w' & -> & _).
  reflexivity.
Qed.

End Instrumentation.

Ltac run_app :=
  unfold handle_request, handle_request_bare, middleware, health, metrics,
    api_data, api_data_callback, res_json, res_send, res_end, event_loop,
    startTimer, process_hrtime, Math_random, Date_toISOString,
    res_set, res_get, setTimeout, lift_res, new_response, bind, ret, gets, modify;
  cbn [res send registry logger timers trace env fresh_response
       statusCode headers body
       with_res with_send with_registry with_logger with_timers with_trace with_env
       hrtime hrtime_reads random random_draws date date_reads lokiUp loki_pushes
       filter list_filter head fmap option_fmap option_map call_send
       run_timers run_task app tail].

Section Requests.

Context {fw : Framework}.

Lemma emitted_app (w w' : World) (evs : list Event) :
  trace w' = trace w ++ evs -> emitted w w' = evs.
Proof. intros H. unfold emitted. rewrite H. apply drop_app_length. Qed.

Lemma patched_send_run (t : Z) (req : Request) (b : string) (w : World) :
  (lift_res (express_send b) ;; instrument t req ;; ret tt) w =
  match express_send b (res w) with
  | (Returned _, r') => instrument t req (with_res r' w)
  | (Thrown err, r') => (Thrown err, with_res r' w)
  end.
Proof.
  unfold bind at 1. unfold lift_res.
  destruct (express_send b (res w)) as [[[]|err] r']; [|reflexivity].
  unfold bind, ret.
  destruct (instrument_spec t req (with_res r' w)) as (w' & -> & _).
  reflexivity.
Qed.

Lemma sample_set_once_intro (req : Request) (w w1 w' : World) (t : Z) :
  trace w1 = trace w ->
  instrument t req w1 = (Returned tt, w') ->
  sample_set_once req w w'.
Proof.
  intros Ht Hi.
  destruct (instrument_spec t req w1) as (w2 & Hi2 & Hres & _ & _ & Htr & _).
  rewrite Hi in Hi2. injection Hi2 as <-.
  cbn zeta in Htr. rewrite Ht in Htr. apply emitted_app in Htr.
  unfold sample_set_once. rewrite Htr, Hres. cbn zeta.
  eexists _, _. repeat split.
Qed.

(** C1, as amended.  A request to GET /api/data or GET /health that
    completes produces exactly one histogram observation, one counter
    increment and one log record, all three labelled with the method and
    path of the request and the status code of the response. *)
Theorem json_endpoints_sample_once (req : Request) (w w' : World) :
  route req = RApiData \/ route req = RHealth ->
  quiescent w ->
  handle_request req w = (Returned tt, w') ->
  sample_set_once req w w'.
Proof.
  intros Hr Hq. unfold quiescent in Hq.
  unfold handle_request, middleware, dispatch.
  destruct Hr as [Hr|Hr]; rewrite Hr; run_app.
  - rewrite Hq. cbn [app tail run_timers run_task]. run_app.
    rewrite patched_send_run. cbn [res with_res].
    destruct (express_send _ _) as [[[]|err] r']; [|discriminate].
    match goal with |- context [instrument ?t ?r ?w1] =>
      destruct (instrument_spec t r w1) as (w2 & Hi & _ & Htm & _ & _) end.
    rewrite Hi. intros [= <-].
    eapply sample_set_once_intro; [|exact Hi]. reflexivity.
  - rewrite patched_send_run. cbn [res with_res].
    destruct (express_send _ _) as [[[]|err] r']; [|discriminate].
    match goal with |- context [instrument ?t ?r ?w1] =>
      destruct (instrument_spec t r w1) as (w2 & Hi & _ & Htm & _ & _) end.
    rewrite Hi.
    cbn [timers with_res with_send with_timers with_env] in Htm. rewrite Htm, Hq.
    cbn [run_timers]. intros [= <-].
    eapply sample_set_once_intro; [|exact Hi]. reflexivity.
Qed.

End Requests.

Section SendLevel.

Context {fw : Framework}.

(** C2, as amended.  When the original [send] has returned, the assigned
    function computes the elapsed time, records it in the histogram,
    emits the log record and then increments the counter, in that order,
    before it returns, and leaves no timer behind. *)
Theorem patched_send_effect_order (t : Z) (req : Request) (orig : SendFn)
        (b : string) (w w1 : World) :
  call_send orig b w = (Returned tt, w1) ->
  exists w' l v record,
    call_send (PatchedSend t req orig) b w = (Returned tt, w')
    /\ v = seconds_of_ns (hrtime (env w1) (hrtime_reads (env w1)) - t)
    /\ l = mkLabels (method req) (path req) (statusCode (res w1))
    /\ trace w' = trace w1 ++ [EvObserve l v; EvLog record; EvInc l]
    /\ timers w' = timers w1.
Proof.
  intros Ho. rewrite call_send_patched, Ho.
  destruct (instrument_spec t req w1) as (w' & Hi & _ & Htm & _ & Htr & _).
  exists w'. eexists _, _, _. split; [exact Hi|].
  split; [reflexivity|]. split; [reflexivity|]. split; [exact Htr | exact Htm].
Qed.

(** C8.  The log record of a finalized request carries, as
    [responseTimeMs], the product by 1000 of the very value the same call
    has recorded in the histogram. *)
Theorem log_reports_observed_time (t : Z) (req : Request) (orig : SendFn)
        (b : string) (w w1 : World) :
  call_send orig b w = (Returned tt, w1) ->
  exists w' l v record,
    call_send (PatchedSend t req orig) b w = (Returned tt, w')
    /\ observations_in (emitted w1 w') = [(l, v)]
    /\ histogram (registry w') !! l
       = Some (v :: default [] (histogram (registry w1) !! l))
    /\ logs_in (emitted w1 w') = [record]
    /\ last (console (logger w')) = Some record
    /\ responseTimeMs record = JSNumber.mul v (JSNumber.of_Z 1000).
Proof.
  intros Ho. rewrite call_send_patched, Ho.
  destruct (instrument_spec t req w1)
    as (w' & Hi & _ & _ & _ & Htr & Hcon & Hh & _).
  cbn zeta in *. apply emitted_app in Htr.
  exists w'. eexists _, _, _. split; [exact Hi|].
  rewrite Htr, Hh, Hcon, lookup_insert_eq, last_snoc. repeat split.
Qed.





End SendLevel.

Section RequestLevel.

Context {fw : Framework}.

Ltac settle Hq :=
  cbn [timers with_res with_send with_env with_timers];
  rewrite ?Hq; cbn [run_timers]; unfold ret;
  cbn [fst snd res send registry logger trace timers
       with_res with_send with_env with_timers]; easy.

Ltac step_send :=
  rewrite ?patched_send_run; unfold lift_res;
  cbn [res with_res with_send with_env with_timers];
  destruct (express_send _ _) as [[[]|?err] ?r'];
  [ match goal with |- context [instrument ?t ?r ?w1] =>
      let w2 := fresh "w2" in
      destruct (instrument_spec t r w1) as (w2 & -> & ?Hres & ?Htm & _)
    end
  | ].

(** C3.  With or without the middleware, a request ends the same way and
    leaves the same response: status code, headers and body. *)
Theorem middleware_transparent (req : Request) (w : World) :
  quiescent w ->
  fst (handle_request req w) = fst (handle_request_bare req w)
  /\ res (snd (handle_request req w)) = res (snd (handle_request_bare req w)).
Proof.
  intros Hq. unfold quiescent in Hq.
  unfold handle_request, handle_request_bare, middleware, dispatch.
  destruct (route req); run_app; rewrite ?Hq; cbn [app tail run_timers run_task].
  - run_app. step_send; cbn [fst snd res with_res]; [|easy].
    rewrite Hres. easy.
  - step_send; cbn [fst snd res with_res].
    + cbn [timers with_res with_send with_env] in Htm. rewrite Htm.
      cbn [timers with_res with_send with_env]. rewrite Hq.
      cbn [run_timers]. unfold ret. cbn [fst snd]. rewrite Hres. easy.
    + easy.
  - destruct (node_end _ _) as [[[]|err] r']; settle Hq.
  - destruct (finalhandler _ _) as [[[]|err] r']; settle Hq.
Qed.

(** C4.  A request to GET /metrics records nothing: the histogram, the
    counter, what the logger has written and the sequence of
    instrumentation effects are what they were. *)
Theorem metrics_request_is_silent (req : Request) (w : World) :
  route req = RMetrics ->
  quiescent w ->
  registry (snd (handle_request req w)) = registry w
  /\ logger (snd (handle_request req w)) = logger w
  /\ trace (snd (handle_request req w)) = trace w.
Proof.
  intros Hr Hq. unfold quiescent in Hq.
  unfold handle_request, middleware, dispatch. rewrite Hr. run_app.
  destruct (node_end _ _) as [[[]|err] r']; settle Hq.
Qed.

(** C6, as amended.  Whatever the registry, the logger and the
    environment hold from earlier requests, GET /health is answered by
    what the framework's [send] makes of the body [{status: "ok"}] on a
    fresh response of status 200 and content type [application/json]; it
    is status 200 and that very body whenever that [send] delivers what
    it is given. *)
Theorem health_answer (req : Request) (w : World) :
  route req = RHealth ->
  quiescent w ->
  let sent :=
    express_send (JSON_stringify (JObj [("status"%string, JStr "ok")]))
      {| statusCode := 200;
         headers := [("Content-Type"%string, "application/json"%string)];
         body := None |} in
  fst (handle_request req w) = fst sent
  /\ res (snd (handle_request req w)) = snd sent
  /\ (send_delivers fw ->
      fst (handle_request req w) = Returned tt
      /\ statusCode (res (snd (handle_request req w))) = 200
      /\ body (res (snd (handle_request req w)))
         = Some (JSON_stringify (JObj [("status"%string, JStr "ok")]))).
Proof.
  intros Hr Hq. unfold quiescent in Hq. cbn zeta.
  unfold handle_request, middleware, dispatch. rewrite Hr. run_app.
  rewrite patched_send_run. cbn [res with_res with_send with_env].
  unfold health_payload.
  destruct (express_send _ _) as [[[]|err] r'] eqn:Hsend; cbn [fst snd].
  - match goal with |- context [instrument ?t ?r ?w1] =>
      destruct (instrument_spec t r w1) as (w2 & Hi & Hres & Htm & _) end.
    rewrite Hi. cbn [timers res with_res with_send with_env] in Htm, Hres.
    rewrite Htm, Hq. cbn [run_timers]. unfold ret. cbn [fst snd]. rewrite Hres.
    split; [reflexivity|]. split; [reflexivity|].
    intros Hfw.
    destruct (Hfw (JSON_stringify (JObj [("status"%string, JStr "ok")]))
                {| statusCode := 200;
                   headers := [("Content-Type"%string, "application/json"%string)];
                   body := None |}) as (r'' & Hs & Hsc & Hb).
    rewrite Hsend in Hs. injection Hs as <-. easy.
  - split; [reflexivity|]. split; [reflexivity|].
    intros Hfw.
    destruct (Hfw (JSON_stringify (JObj [("status"%string, JStr "ok")]))
                {| statusCode := 200;
                   headers := [("Content-Type"%string, "application/json"%string)];
                   body := None |}) as (r'' & Hs & _).
    rewrite Hsend in Hs. discriminate Hs.
Qed.

(** C7.  When the random source yields numbers of [0, 1), the body GET
    /api/data answers with is the object whose [value] is an integer
    from 0 to 99. *)
Theorem api_data_value_in_range (req : Request) (w : World) :
  send_delivers fw ->
  route req = RApiData ->
  quiescent w ->
  (forall n, JSNumber.in_unit_interval (random (env w) n) = true) ->
  exists w' v ts k,
    handle_request req w = (Returned tt, w')
    /\ body (res w')
       = Some (JSON_stringify
                 (JObj [("value"%string, JNum v); ("timestamp"%string, JStr ts)]))
    /\ JSNumber.to_integer v = Some k /\ 0 <= k <= 99.
Proof.
  intros Hfw Hr Hq Hrand. unfold quiescent in Hq.
  unfold handle_request, middleware, dispatch. rewrite Hr. run_app.
  rewrite Hq. cbn [app tail run_timers run_task]. run_app.
  rewrite patched_send_run. cbn [res with_res with_send with_env with_timers].
  match goal with |- context [express_send ?b ?r] =>
    destruct (Hfw b r) as (r' & -> & Hsc & Hb) end.
  match goal with |- context [instrument ?t ?r ?w1] =>
    destruct (instrument_spec t r w1) as (w2 & -> & Hres & _) end.
  cbn [res with_res] in Hres.
  destruct (scaled_random_in_range _ (Hrand (S (random_draws (env w)))))
    as (k & Hk & Hrange).
  exists w2. eexists _, _, k. split; [reflexivity|].
  rewrite Hres, Hb. unfold api_data_payload. easy.
Qed.

End RequestLevel.

(** ** The Loki sink and the response *)

Ltac erase_facts H :=
  pose proof (f_equal res H) as ?Hres;
  pose proof (f_equal send H) as ?Hsend;
  pose proof (f_equal registry H) as ?Hreg;
  pose proof (f_equal (fun w => console (logger w)) H) as ?Hcon;
  pose proof (f_equal timers H) as ?Htim;
  pose proof (f_equal trace H) as ?Htr;
  pose proof (f_equal (fun w => hrtime (env w)) H) as ?Hh;
  pose proof (f_equal (fun w => hrtime_reads (env w)) H) as ?Hhr;
  pose proof (f_equal (fun w => random (env w)) H) as ?Hr;
  pose proof (f_equal (fun w => random_draws (env w)) H) as ?Hrd;
  pose proof (f_equal (fun w => date (env w)) H) as ?Hd;
  pose proof (f_equal (fun w => date_reads (env w)) H) as ?Hdr;
  pose proof (f_equal (fun w => loki_pushes (env w)) H) as ?Hlp;
  cbn in *.

Ltac blind_prim :=
  let w1 := fresh "w1" in let w2 := fresh "w2" in let H := fresh "H" in
  intros w1 w2 H; erase_facts H; unfold erase_sink; cbn;
  split; congruence.

Section SinkBlind.

Context {fw : Framework}.

Lemma blind_ret {A} (a : A) : sink_blind (ret a).
Proof. intros w1 w2 H. now split. Qed.

Lemma blind_bind {A B} (c : M A) (k : A -> M B) :
  sink_blind c -> (forall a, sink_blind (k a)) -> sink_blind (bind c k).
Proof.
  intros Hc Hk w1 w2 H. unfold bind.
  destruct (Hc w1 w2 H) as [Ho Hw].
  destruct (c w1) as [[a1|e1] w1'], (c w2) as [[a2|e2] w2']; cbn in Ho, Hw;
    try discriminate.
  - injection Ho as <-. apply Hk, Hw.
  - injection Ho as <-. now split.
Qed.

Lemma blind_gets_res {A} (f : Response -> A) : sink_blind (gets (fun w => f (res w))).
Proof. blind_prim. Qed.

Lemma blind_gets_send : sink_blind (gets send).
Proof. blind_prim. Qed.

Lemma blind_gets_timers : sink_blind (gets timers).
Proof. blind_prim. Qed.

Lemma blind_gets_registry {A} (f : Registry -> A) :
  sink_blind (gets (fun w => f (registry w))).
Proof. blind_prim. Qed.

Lemma blind_modify_res (f : Response -> Response) :
  sink_blind (modify (fun w => with_res (f (res w)) w)).
Proof. blind_prim. Qed.

Lemma blind_with_send (f : SendFn) : sink_blind (modify (with_send f)).
Proof. blind_prim. Qed.

Lemma blind_new_response : sink_blind new_response.
Proof. blind_prim. Qed.

Lemma blind_modify_timers (f : list (number * Task) -> list (number * Task)) :
  sink_blind (modify (fun w => with_timers (f (timers w)) w)).
Proof. blind_prim. Qed.

Lemma blind_process_hrtime : sink_blind process_hrtime.
Proof. blind_prim. Qed.

Lemma blind_Math_random : sink_blind Math_random.
Proof. blind_prim. Qed.

Lemma blind_Date_toISOString : sink_blind Date_toISOString.
Proof. blind_prim. Qed.

Lemma blind_emit (ev : Event) : sink_blind (emit ev).
Proof. blind_prim. Qed.

Lemma blind_observe (l : Labels) (v : number) : sink_blind (observe l v).
Proof. blind_prim. Qed.

Lemma blind_counter_inc (l : Labels) : sink_blind (counter_inc l).
Proof. blind_prim. Qed.

Lemma blind_lift_res (f : Response -> Outcome unit * Response) :
  sink_blind (lift_res f).
Proof.
  intros w1 w2 H. erase_facts H. unfold lift_res. rewrite Hres.
  destruct (f (res w2)) as [o r]. unfold erase_sink; cbn. split; congruence.
Qed.

(** The one place that asks whether Loki is reachable: the answer decides
    what the sink receives and what is printed for it, and nothing else. *)
Lemma blind_logger_info (msg m p : string) (sc : Z) (ms : number) :
  sink_blind (logger_info msg m p sc ms).
Proof. blind_prim. Qed.

Lemma blind_res_set (name value : string) : sink_blind (res_set name value).
Proof. blind_prim. Qed.

Lemma blind_res_get (name : string) : sink_blind (res_get name).
Proof. blind_prim. Qed.

Lemma blind_setTimeout (t : Task) (d : number) : sink_blind (setTimeout t d).
Proof. blind_prim. Qed.

Lemma blind_pop_timer : sink_blind (modify (fun w => with_timers (tail (timers w)) w)).
Proof. blind_prim. Qed.

Ltac blind :=
  repeat lazymatch goal with
  | |- sink_blind (bind _ _) => apply blind_bind; [|intros ?]
  | |- sink_blind (ret _) => apply blind_ret
  | |- sink_blind (gets send) => apply blind_gets_send
  | |- sink_blind (gets timers) => apply blind_gets_timers
  | |- sink_blind (gets (fun w => statusCode (res w))) =>
      apply (blind_gets_res statusCode)
  | |- sink_blind process_hrtime => apply blind_process_hrtime
  | |- sink_blind Math_random => apply blind_Math_random
  | |- sink_blind Date_toISOString => apply blind_Date_toISOString
  | |- sink_blind (observe _ _) => apply blind_observe
  | |- sink_blind (counter_inc _) => apply blind_counter_inc
  | |- sink_blind (logger_info _ _ _ _ _) => apply blind_logger_info
  | |- sink_blind (lift_res _) => apply blind_lift_res
  | |- sink_blind (res_set _ _) => apply blind_res_set
  | |- sink_blind (res_get _) => apply blind_res_get
  | |- sink_blind (setTimeout _ _) => apply blind_setTimeout
  | |- sink_blind new_response => apply blind_new_response
  | |- sink_blind (modify (with_send _)) => apply blind_with_send
  | |- sink_blind (modify (fun w => with_timers (tail (timers w)) w)) =>
      apply blind_pop_timer
  | |- sink_blind _ => solve [auto]
  end.

Lemma blind_instrument (t : Z) (req : Request) : sink_blind (instrument t req).
Proof. unfold instrument, timer_end. blind. Qed.

Lemma blind_call_send (f : SendFn) (b : string) : sink_blind (call_send f b).
Proof.
  induction f as [|t req orig IH]; cbn [call_send].
  - apply blind_lift_res.
  - pose proof (blind_instrument t req). blind; assumption.
Qed.

Lemma blind_res_json (obj : Json) : sink_blind (res_json obj).
Proof.
  unfold res_json, res_send. pose proof blind_call_send.
  blind. destruct a; blind.
Qed.

Lemma blind_dispatch (req : Request) : sink_blind (dispatch req).
Proof.
  pose proof blind_res_json.
  unfold dispatch, api_data, health, metrics, res_end.
  destruct (route req); blind.
  apply (blind_gets_registry registry_metrics).
Qed.

Lemma blind_run_timers (ts : list (number * Task)) : sink_blind (run_timers ts).
Proof.
  induction ts as [|[d t] ts IH]; cbn [run_timers]; blind.
  destruct t. unfold run_task, api_data_callback. blind. apply blind_res_json.
Qed.

Lemma blind_handle_request (req : Request) : sink_blind (handle_request req).
Proof.
  pose proof (blind_dispatch req). pose proof blind_run_timers.
  unfold handle_request, middleware, startTimer, event_loop. blind; auto.
Qed.

(** C5.  Whether the Loki sink is reachable, and whatever it has received
    or failed to receive before, a request ends the same way and the
    client is sent the same status code, headers and body. *)
Theorem sink_failure_leaves_response (req : Request) (w1 w2 : World) :
  erase_sink w1 = erase_sink w2 ->
  fst (handle_request req w1) = fst (handle_request req w2)
  /\ res (snd (handle_request req w1)) = res (snd (handle_request req w2)).
Proof.
  intros H. destruct (blind_handle_request req w1 w2 H) as [Ho Hw].
  split; [exact Ho|]. exact (f_equal res Hw).
Qed.

End SinkBlind.

(** ** The registry (lines 8-28) *)

Section RegistrySetup.

(** C10.  Once the application has registered its metrics, the registry
    holds, under the name [http_request_duration_seconds], a histogram
    with the labels [method], [route] and [status_code] and the bucket
    bounds 0.1, 0.3, 0.5, 0.7, 1, 3, 5, 7 and 10, and, under the name
    [http_requests_total], a counter with the same labels; every other
    name is as the default metrics left it. *)
Theorem registered_metrics (defaults reg : gmap string Metric) :
  register defaults = Some reg ->
  reg !! "http_request_duration_seconds"%string
    = Some (Histogram "http_request_duration_seconds"
                      "Duration of HTTP requests in seconds"
                      ["method"; "route"; "status_code"]%string
                      [JSNumber.tenths 1; JSNumber.tenths 3; JSNumber.tenths 5;
                       JSNumber.tenths 7; JSNumber.of_Z 1; JSNumber.of_Z 3;
                       JSNumber.of_Z 5; JSNumber.of_Z 7; JSNumber.of_Z 10])
  /\ reg !! "http_requests_total"%string
     = Some (Counter "http_requests_total" "Total number of HTTP requests"
                     ["method"; "route"; "status_code"]%string)
  /\ forall name : string,
       name <> "http_request_duration_seconds"%string ->
       name <> "http_requests_total"%string ->
       reg !! name = defaults !! name.
Proof.
  unfold register, registerMetric. cbn [metric_name httpRequestDurationMicroseconds
                                        httpRequestCounter].
  destruct (defaults !! _) eqn:Hd; [discriminate|]. cbn [mbind option_bind].
  destruct (_ !! "http_requests_total"%string) eqn:Hc; [discriminate|].
  intros [= <-]. split; [|split].
  - rewrite lookup_insert_ne by discriminate. apply lookup_insert_eq.
  - apply lookup_insert_eq.
  - intros name H1 H2. now rewrite !lookup_insert_ne by congruence.
Qed.

End RegistrySetup.

(** ** The application run on a concrete framework *)

Lemma plain_framework_delivers : send_delivers plain_framework.
Proof. intros b r. eexists. repeat split. Qed.

(** C1, as the specification states it, fails on GET /metrics: the request
    completes and no log record, observation or increment is produced. *)
Lemma metrics_request_counterexample :
  fst (@handle_request plain_framework (GET "/metrics") (world0 true)) = Returned tt
  /\ ~ sample_set_once (GET "/metrics") (world0 true)
         (snd (@handle_request plain_framework (GET "/metrics") (world0 true))).
Proof.
  split; [vm_compute; reflexivity|].
  intros (v & record & _ & _ & Hlogs & _).
  vm_compute in Hlogs. discriminate Hlogs.
Qed.

Lemma json_endpoints_sample_once_witness :
  sample_set_once (GET "/api/data") (world0 false)
    (snd (@handle_request plain_framework (GET "/api/data") (world0 false))).
Proof.
  apply (@json_endpoints_sample_once plain_framework).
  - left. vm_compute. reflexivity.
  - reflexivity.
  - vm_compute. reflexivity.
Defined.

(** C2, as the specification states it, fails: the counter is not
    incremented before the log record is emitted. *)
Lemma effect_order_counterexample :
  ~ exists l v record,
      emitted (world0 true)
        (snd (@call_send plain_framework
                (PatchedSend 0 (GET "/health") FrameworkSend) "ok" (world0 true)))
      = [EvObserve l v; EvInc l; EvLog record].
Proof.
  intros (l & v & record & H). vm_compute in H. discriminate H.
Qed.

Lemma patched_send_effect_order_witness :
  exists w' l v record,
    @call_send plain_framework (PatchedSend 0 (GET "/health") FrameworkSend)
               "ok" (world0 true)
    = (Returned tt, w')
    /\ v = seconds_of_ns
             (hrtime (env (with_res {| statusCode := 200; headers := [];
                                       body := Some "ok"%string |} (world0 true)))
                     (hrtime_reads (env (with_res {| statusCode := 200; headers := [];
                                       body := Some "ok"%string |} (world0 true))))
              - 0)
    /\ l = mkLabels "GET" "/health" 200
    /\ trace w' = trace (world0 true) ++ [EvObserve l v; EvLog record; EvInc l]
    /\ timers w' = [].
Proof.
  exact (@patched_send_effect_order plain_framework 0 (GET "/health")
           FrameworkSend "ok" (world0 true)
           (with_res {| statusCode := 200; headers := [];
                        body := Some "ok"%string |} (world0 true))
           eq_refl).
Defined.

Lemma middleware_transparent_witness :
  fst (@handle_request plain_framework (GET "/api/data") (world0 true))
  = fst (@handle_request_bare plain_framework (GET "/api/data") (world0 true))
  /\ res (snd (@handle_request plain_framework (GET "/api/data") (world0 true)))
     = res (snd (@handle_request_bare plain_framework (GET "/api/data") (world0 true))).
Proof.
  apply (@middleware_transparent plain_framework). reflexivity.
Defined.

Lemma metrics_request_is_silent_witness :
  registry (snd (@handle_request plain_framework (GET "/metrics") (world0 true)))
  = registry (world0 true)
  /\ logger (snd (@handle_request plain_framework (GET "/metrics") (world0 true)))
     = logger (world0 true)
  /\ trace (snd (@handle_request plain_framework (GET "/metrics") (world0 true)))
     = trace (world0 true).
Proof.
  apply (@metrics_request_is_silent plain_framework).
  - vm_compute. reflexivity.
  - reflexivity.
Defined.

Lemma sink_failure_leaves_response_witness :
  fst (@handle_request plain_framework (GET "/health") (world0 true))
  = fst (@handle_request plain_framework (GET "/health") (world0 false))
  /\ res (snd (@handle_request plain_framework (GET "/health") (world0 true)))
     = res (snd (@handle_request plain_framework (GET "/health") (world0 false))).
Proof.
  apply (@sink_failure_leaves_response plain_framework). reflexivity.
Defined.

(** C6, as the specification states it, fails on a conditional request
    that is still fresh: the handler does the same, and the framework's
    [send] answers 304 with an empty body. *)
Lemma health_conditional_counterexample :
  fst (@handle_request conditional_framework (GET "/health") (world0 true))
  = Returned tt
  /\ ~ (statusCode
          (res (snd (@handle_request conditional_framework (GET "/health")
                       (world0 true)))) = 200
        /\ body
             (res (snd (@handle_request conditional_framework (GET "/health")
                          (world0 true))))
           = Some (@JSON_stringify conditional_framework
                     (JObj [("status"%string, JStr "ok")]))).
Proof.
  split; [vm_compute; reflexivity|].
  intros [Hsc _]. vm_compute in Hsc. discriminate Hsc.
Qed.

Lemma health_answer_witness :
  fst (@handle_request plain_framework (GET "/health") (world0 false))
  = fst (@express_send plain_framework
           (@JSON_stringify plain_framework (JObj [("status"%string, JStr "ok")]))
           {| statusCode := 200;
              headers := [("Content-Type"%string, "application/json"%string)];
              body := None |})
  /\ res (snd (@handle_request plain_framework (GET "/health") (world0 false)))
     = snd (@express_send plain_framework
              (@JSON_stringify plain_framework (JObj [("status"%string, JStr "ok")]))
              {| statusCode := 200;
                 headers := [("Content-Type"%string, "application/json"%string)];
                 body := None |})
  /\ (send_delivers plain_framework ->
      fst (@handle_request plain_framework (GET "/health") (world0 false))
      = Returned tt
      /\ statusCode
           (res (snd (@handle_request plain_framework (GET "/health") (world0 false))))
         = 200
      /\ body
           (res (snd (@handle_request plain_framework (GET "/health") (world0 false))))
         = Some (@JSON_stringify plain_framework
                   (JObj [("status"%string, JStr "ok")]))).
Proof.
  apply (@health_answer plain_framework (GET "/health") (world0 false)).
  - vm_compute. reflexivity.
  - reflexivity.
Defined.

Lemma api_data_value_in_range_witness :
  exists w' v ts k,
    @handle_request plain_framework (GET "/api/data") (world0 true) = (Returned tt, w')
    /\ body (res w')
       = Some (@JSON_stringify plain_framework
                 (JObj [("value"%string, JNum v); ("timestamp"%string, JStr ts)]))
    /\ JSNumber.to_integer v = Some k /\ 0 <= k <= 99.
Proof.
  apply (@api_data_value_in_range plain_framework).
  - exact plain_framework_delivers.
  - vm_compute. reflexivity.
  - reflexivity.
  - intros n. vm_compute. reflexivity.
Defined.

Lemma log_reports_observed_time_witness :
  exists w' l v record,
    @call_send plain_framework (PatchedSend 0 (GET "/health") FrameworkSend)
               "ok" (world0 true)
    = (Returned tt, w')
    /\ observations_in
         (emitted (with_res {| statusCode := 200; headers := [];
                               body := Some "ok"%string |} (world0 true)) w')
       = [(l, v)]
    /\ histogram (registry w') !! l
       = Some (v :: default [] (histogram (registry (world0 true)) !! l))
    /\ logs_in
         (emitted (with_res {| statusCode := 200; headers := [];
                               body := Some "ok"%string |} (world0 true)) w')
       = [record]
    /\ last (console (logger w')) = Some record
    /\ responseTimeMs record = JSNumber.mul v (JSNumber.of_Z 1000).
Proof.
  exact (@log_reports_observed_time plain_framework 0 (GET "/health")
           FrameworkSend "ok" (world0 true)
           (with_res {| statusCode := 200; headers := [];
                        body := Some "ok"%string |} (world0 true))
           eq_refl).
Defined.



Lemma registered_metrics_witness :
  exists reg : gmap string Metric,
    register ∅ = Some reg
    /\ reg !! "http_requests_total"%string
       = Some (Counter "http_requests_total" "Total number of HTTP requests"
                       ["method"; "route"; "status_code"]%string).
Proof.
  exists (<["http_requests_total"%string := httpRequestCounter]>
            (<["http_request_duration_seconds"%string := httpRequestDurationMicroseconds]> ∅)).
  split; [reflexivity|].
  apply (registered_metrics ∅). reflexivity.
Defined.

(** * Further properties of the application

    ** The simulated delay (lines 83-90) *)

Section UnitProducts.

(** The product of a number of [0, 1) by an integer constant [c] that is
    not a power of two and whose double has mantissa [my = c * 2^s] stays
    below [c] after rounding. *)
Lemma unit_product_below (m my : positive) (e s c : Z) :
  JSNumber.valid (S754_finite false m e) = true ->
  SFltb (S754_finite false m e) JSNumber.one = true ->
  0 <= s <= 52 ->
  Z.pos my = c * 2 ^ s ->
  2 ^ 52 < Z.pos my < 2 ^ 53 ->
  match JSNumber.mul (S754_finite false m e) (S754_finite false my (- s)) with
  | S754_zero s' => s' = false
  | S754_finite s' m' e' => s' = false /\ JSNumber.floorZ false m' e' < c
  | _ => False
  end.
Proof.
  intros Hv H1 Hs Hmy Hrange.
  destruct (unit_interval_finite m e Hv H1) as [Hm He].
  unfold JSNumber.mul, SFmul. cbn [xorb].
  replace (e + - s) with (- (s - e)) by lia.
  assert (HS : 0 < 2 ^ s) by (apply Z.pow_pos_nonneg; lia).
  assert (Hc : 0 < c) by nia.
  assert (Hc53 : c < 2 ^ 53) by nia.
  apply binary_round_aux_below; [lia | |].
  { split; [exact Hc|]. transitivity (2 ^ 53); [lia|].
    apply Z.pow_le_mono_r; lia. }
  set (K := s - e) in *. set (M := (m * my)%positive).
  assert (HM : Z.pos M = Z.pos m * Z.pos my) by (subst M; apply Pos2Z.inj_mul).
  assert (HP : 0 < 2 ^ (- e - 53)) by (apply Z.pow_pos_nonneg; lia).
  assert (HK2 : 2 ^ K = 2 ^ s * (2 ^ 53 * 2 ^ (- e - 53))).
  { rewrite <- !Z.pow_add_r by lia. f_equal; lia. }
  assert (HK3 : 2 ^ (K - s) = 2 ^ 53 * 2 ^ (- e - 53)).
  { rewrite <- Z.pow_add_r by lia. f_equal; lia. }
  assert (Hdig : Zdigits2 (Z.pos M) <= 53 - s + K).
  { apply Zdigits2_le; [lia|]. rewrite HM.
    replace (53 - s + K) with (53 + (53 + (- e - 53))) by lia.
    rewrite !Z.pow_add_r by lia.
    assert (0 < 2 ^ 53) by (apply Z.pow_pos_nonneg; lia). nia. }
  assert (Hn : Z.max 0 (fexp JSNumber.prec JSNumber.emax (Zdigits2 (Z.pos M) + - K)
                        - - K) <= K - s).
  { unfold fexp, emin, JSNumber.prec, JSNumber.emax. lia. }
  assert (Hpw : 2 ^ Z.max 0 (fexp JSNumber.prec JSNumber.emax
                               (Zdigits2 (Z.pos M) + - K) - - K) <= 2 ^ (K - s))
    by (apply Z.pow_le_mono_r; lia).
  rewrite HK3 in Hpw. rewrite HK2.
  set (pw := 2 ^ Z.max 0 _) in *. set (P := 2 ^ (- e - 53)) in *.
  clearbody pw P. rewrite HM.
  replace (2 * c * (2 ^ s * (2 ^ 53 * P))) with (2 * Z.pos my * (2 ^ 53 * P))
    by (rewrite Hmy; ring).
  rewrite pow2_52, pow2_53 in *.
  set (y := Z.pos my) in *. set (zm := Z.pos m) in *.
  clearbody y zm. clear - Hpw Hm HP Hrange.
  assert (zm * y <= 9007199254740991 * y) by nia.
  assert (0 <= (P - 1) * (2 * y - 1)) by nia.
  nia.
Qed.

Lemma five_hundred_eq :
  JSNumber.of_Z 500 = S754_finite false 8796093022208000 (- 44).
Proof. vm_compute; reflexivity. Qed.

Lemma to_integer_of_Z_below_500 (k : Z) :
  0 < k < 500 -> JSNumber.to_integer (JSNumber.of_Z k) = Some k.
Proof.
  intros Hk.
  assert (Hall : forallb
            (fun n => match JSNumber.to_integer (JSNumber.of_Z (Z.of_nat n)) with
                      | Some k' => Z.of_nat n =? k'
                      | None => false
                      end) (seq 1 499) = true) by (vm_compute; reflexivity).
  rewrite forallb_forall in Hall.
  specialize (Hall (Z.to_nat k)). rewrite Z2Nat.id in Hall by lia.
  destruct (JSNumber.to_integer _) as [k'|].
  - f_equal. symmetry. apply Z.eqb_eq. apply Hall. apply in_seq. lia.
  - discriminate Hall. apply in_seq. lia.
Qed.

Lemma floor_below (x : number) (c : Z) :
  0 < c ->
  (forall k, 0 < k < c -> JSNumber.to_integer (JSNumber.of_Z k) = Some k) ->
  match x with
  | S754_zero _ => True
  | S754_finite s' m' e' => s' = false /\ JSNumber.floorZ false m' e' < c
  | _ => False
  end ->
  exists k, JSNumber.to_integer (JSNumber.floor x) = Some k /\ 0 <= k < c.
Proof.
  intros Hc Hint Hx. destruct x as [s'| | |s' m' e']; try contradiction.
  - exists 0. split; [reflexivity | lia].
  - destruct Hx as [-> Hfl]. cbn [JSNumber.floor].
    assert (Hnn : 0 <= JSNumber.floorZ false m' e').
    { unfold JSNumber.floorZ. destruct (0 <=? e') eqn:He'.
      - apply Z.mul_nonneg_nonneg; [lia | apply Z.pow_nonneg; lia].
      - apply Z.leb_gt in He'.
        apply Z.div_pos; [lia | apply Z.pow_pos_nonneg; lia]. }
    destruct (JSNumber.floorZ false m' e') as [|k|k] eqn:Hk.
    + exists 0. split; [reflexivity | lia].
    + exists (Z.pos k). split; [apply Hint; lia | lia].
    + lia.
Qed.

End UnitProducts.

Section Handlers.

Context {fw : Framework}.

(** X1.  For a random draw of [0, 1), the data handler schedules its
    callback after a delay of at least 0 and less than 500 milliseconds:
    the integer part of [Math.random() * 500] is between 0 and 499. *)
Theorem api_data_delay_in_range (w : World) :
  JSNumber.in_unit_interval (random (env w) (random_draws (env w))) = true ->
  exists w' delay k,
    api_data w = (Returned tt, w')
    /\ timers w' = timers w ++ [(delay, ApiDataCallback)]
    /\ JSNumber.to_integer (JSNumber.floor delay) = Some k
    /\ 0 <= k < 500.
Proof.
  intros Hr. unfold api_data. run_app.
  eexists _, _. 
  assert (Hk : exists k,
             JSNumber.to_integer
               (JSNumber.floor
                  (JSNumber.mul (random (env w) (random_draws (env w)))
                                (JSNumber.of_Z 500))) = Some k /\ 0 <= k < 500).
  { unfold JSNumber.in_unit_interval in Hr.
    apply andb_true_iff in Hr as [Hr H1]. apply andb_true_iff in Hr as [Hv H0].
    apply floor_below; [lia | exact to_integer_of_Z_below_500 |].
    rewrite five_hundred_eq.
    destruct (random (env w) (random_draws (env w))) as [s| s | |s m e];
      try discriminate.
    - exact I.
    - destruct s; discriminate.
    - destruct s; [discriminate|].
      assert (Hb := unit_product_below m 8796093022208000 e 44 500 Hv H1).
      destruct (JSNumber.mul _ _); try exact I; apply Hb; try lia.
      all: try (vm_compute; reflexivity).
      all: rewrite pow2_52, pow2_53; lia. }
  destruct Hk as (k & Hk & Hrange). exists k.
  split; [reflexivity|]. split; [reflexivity|]. split; assumption.
Qed.

End Handlers.

Section Handlers2.

Context {fw : Framework}.

(** X2.  When the data handler returns, the response has not been sent
    and nothing has been recorded: one more timer is pending, and the
    body, the registry, the logger and the effects are untouched. *)
Theorem api_data_defers (req : Request) (w : World) :
  route req = RApiData ->
  exists w1,
    (new_response ;; middleware req (dispatch req)) w = (Returned tt, w1)
    /\ body (res w1) = None
    /\ length (timers w1) = S (length (timers w))
    /\ registry w1 = registry w /\ logger w1 = logger w /\ trace w1 = trace w.
Proof.
  intros Hr. unfold middleware, dispatch. rewrite Hr. run_app.
  eexists. split; [reflexivity|].
  cbn [res body timers registry logger trace
       with_res with_send with_env with_timers].
  rewrite length_app. cbn [length]. repeat split. lia.
Qed.

(** X3.  When the original [send] throws, the assigned function throws
    the same error and records nothing: the world is as the original
    [send] left it. *)
Theorem failed_send_records_nothing (t : Z) (req : Request) (orig : SendFn)
        (b : string) (w w1 : World) (err : string) :
  call_send orig b w = (Thrown err, w1) ->
  call_send (PatchedSend t req orig) b w = (Thrown err, w1).
Proof. intros Ho. now rewrite call_send_patched, Ho. Qed.

(** X4.  The duration recorded for a request to GET /api/data or GET
    /health that completes is the time between two readings of the
    monotonic clock: the one the middleware takes when the request
    arrives and the next one, taken once [send] has returned. *)
Theorem recorded_duration_spans_request (req : Request) (w w' : World) :
  route req = RApiData \/ route req = RHealth ->
  quiescent w ->
  handle_request req w = (Returned tt, w') ->
  exists l,
    observations_in (emitted w w')
    = [(l, seconds_of_ns (hrtime (env w) (S (hrtime_reads (env w)))
                          - hrtime (env w) (hrtime_reads (env w))))].
Proof.
  intros Hr Hq. unfold quiescent in Hq.
  unfold handle_request, middleware, dispatch.
  destruct Hr as [Hr|Hr]; rewrite Hr; run_app.
  - rewrite Hq. cbn [app tail run_timers run_task]. run_app.
    rewrite patched_send_run. cbn [res with_res].
    destruct (express_send _ _) as [[[]|err] r']; [|discriminate].
    match goal with |- context [instrument ?t ?r ?w1] =>
      destruct (instrument_spec t r w1) as (w2 & Hi & _ & _ & _ & Htr & _) end.
    rewrite Hi. intros [= <-]. cbn zeta in Htr.
    cbn [trace env hrtime hrtime_reads with_res with_send with_env with_timers] in Htr.
    apply emitted_app in Htr. rewrite Htr. eexists. reflexivity.
  - rewrite patched_send_run. cbn [res with_res].
    destruct (express_send _ _) as [[[]|err] r']; [|discriminate].
    match goal with |- context [instrument ?t ?r ?w1] =>
      destruct (instrument_spec t r w1) as (w2 & Hi & _ & Htm & _ & Htr & _) end.
    rewrite Hi.
    cbn [timers with_res with_send with_timers with_env] in Htm. rewrite Htm, Hq.
    cbn [run_timers]. intros [= <-]. cbn zeta in Htr.
    cbn [trace env hrtime hrtime_reads with_res with_send with_env with_timers] in Htr.
    apply emitted_app in Htr. rewrite Htr. eexists. reflexivity.
Qed.

(** X5.  GET /metrics answers 200 with the text exposition of the
    registry as it stood when the request arrived, under the registry's
    content type. *)
Theorem metrics_response (req : Request) (w : World) :
  end_delivers fw ->
  route req = RMetrics ->
  quiescent w ->
  exists w',
    handle_request req w = (Returned tt, w')
    /\ statusCode (res w') = 200
    /\ headers (res w') = [("Content-Type"%string, registry_contentType)]
    /\ body (res w') = Some (registry_metrics (registry w)).
Proof.
  intros Hfw Hr Hq. unfold quiescent in Hq.
  unfold handle_request, middleware, dispatch. rewrite Hr. run_app.
  match goal with |- context [node_end ?b ?r] =>
    destruct (Hfw b r) as (r' & -> & Hsc & Hh & Hb) end.
  cbn [timers with_res with_send with_env]. rewrite Hq. cbn [run_timers].
  eexists. split; [reflexivity|]. cbn [res with_res]. easy.
Qed.

End Handlers2.

(** X6.  The Loki host is the value of [LOKI_HOST] when that is set and
    not empty, and [http://loki:3100] otherwise; it is never empty. *)
Theorem loki_host_default (LOKI_HOST : option string) :
  loki_host LOKI_HOST <> ""%string
  /\ (forall s, LOKI_HOST = Some s -> s <> ""%string -> loki_host LOKI_HOST = s)
  /\ (LOKI_HOST = None \/ LOKI_HOST = Some ""%string ->
      loki_host LOKI_HOST = "http://loki:3100"%string).
Proof.
  unfold loki_host. destruct LOKI_HOST as [s|].
  - destruct (decide (s = ""%string)) as [->|Hs].
    + split; [discriminate|]. split; [intros s [= <-] H; now destruct H | reflexivity].
    + split; [exact Hs|]. split; [now intros s' [= <-] |].
      intros [H|[= H]]; [discriminate | contradiction].
  - split; [discriminate|]. split; [discriminate | reflexivity].
Qed.

Section Accounting.

Context {fw : Framework}.






End Accounting.

Section SinkAndRecords.

Context {fw : Framework}.

(** X8.  Whether the Loki sink is reachable changes neither the metrics
    nor what the console transport writes: after the same request, the
    registry, the console log and the instrumentation effects are the
    same. *)
Theorem sink_failure_leaves_metrics_and_console (req : Request) (w1 w2 : World) :
  erase_sink w1 = erase_sink w2 ->
  registry (snd (handle_request req w1)) = registry (snd (handle_request req w2))
  /\ console (logger (snd (handle_request req w1)))
     = console (logger (snd (handle_request req w2)))
  /\ trace (snd (handle_request req w1)) = trace (snd (handle_request req w2)).
Proof.
  intros H. destruct (blind_handle_request req w1 w2 H) as [_ Hw].
  split; [exact (f_equal registry Hw)|].
  split; [exact (f_equal (fun w => console (logger w)) Hw) | exact (f_equal trace Hw)].
Qed.

End SinkAndRecords.

(** ** The further properties on a concrete framework *)

Lemma plain_framework_end_delivers : end_delivers plain_framework.
Proof. intros b r. eexists. repeat split. Qed.

Lemma api_data_delay_in_range_witness :
  exists w' delay k,
    api_data (world0 true) = (Returned tt, w')
    /\ timers w' = timers (world0 true) ++ [(delay, ApiDataCallback)]
    /\ JSNumber.to_integer (JSNumber.floor delay) = Some k
    /\ 0 <= k < 500.
Proof.
  apply (api_data_delay_in_range (world0 true)). vm_compute. reflexivity.
Defined.

Lemma api_data_defers_witness :
  exists w1,
    (new_response ;; @middleware (GET "/api/data") (@dispatch plain_framework (GET "/api/data")))
      (world0 true) = (Returned tt, w1)
    /\ body (res w1) = None
    /\ length (timers w1) = S (length (timers (world0 true)))
    /\ registry w1 = registry (world0 true) /\ logger w1 = logger (world0 true)
    /\ trace w1 = trace (world0 true).
Proof.
  apply (@api_data_defers plain_framework). vm_compute. reflexivity.
Defined.

Lemma failed_send_records_nothing_witness :
  @call_send strict_framework (PatchedSend 0 (GET "/health") FrameworkSend) "again"
    (with_res {| statusCode := 200; headers := []; body := Some "ok"%string |}
              (world0 true))
  = (Thrown "ERR_HTTP_HEADERS_SENT",
     with_res {| statusCode := 200; headers := []; body := Some "ok"%string |}
              (world0 true)).
Proof.
  apply (@failed_send_records_nothing strict_framework). reflexivity.
Defined.

Lemma recorded_duration_spans_request_witness :
  exists l,
    observations_in
      (emitted (world0 true)
         (snd (@handle_request plain_framework (GET "/health") (world0 true))))
    = [(l, seconds_of_ns (hrtime (env (world0 true)) 1 - hrtime (env (world0 true)) 0))].
Proof.
  apply (@recorded_duration_spans_request plain_framework (GET "/health")).
  - right. vm_compute. reflexivity.
  - reflexivity.
  - vm_compute. reflexivity.
Defined.

Lemma metrics_response_witness :
  exists w',
    @handle_request plain_framework (GET "/metrics") (world0 true) = (Returned tt, w')
    /\ statusCode (res w') = 200
    /\ headers (res w')
       = [("Content-Type"%string, @registry_contentType plain_framework)]
    /\ body (res w')
       = Some (@registry_metrics plain_framework (registry (world0 true))).
Proof.
  apply (@metrics_response plain_framework).
  - exact plain_framework_end_delivers.
  - vm_compute. reflexivity.
  - reflexivity.
Defined.


Lemma sink_failure_leaves_metrics_and_console_witness :
  registry (snd (@handle_request plain_framework (GET "/api/data") (world0 true)))
  = registry (snd (@handle_request plain_framework (GET "/api/data") (world0 false)))
  /\ console (logger (snd (@handle_request plain_framework (GET "/api/data") (world0 true))))
     = console (logger (snd (@handle_request plain_framework (GET "/api/data") (world0 false))))
  /\ trace (snd (@handle_request plain_framework (GET "/api/data") (world0 true)))
     = trace (snd (@handle_request plain_framework (GET "/api/data") (world0 false))).
Proof.
  apply (@sink_failure_leaves_metrics_and_console plain_framework). reflexivity.
Defined.
